(** * sensores.py: sensors with a moving window, alert managers and a plant

    A shallow embedding of [src/sensores.py].

    - Python [float] values are IEEE 754 binary64 numbers: they are modelled
      by [spec_float] at precision 53 and maximal exponent 1024, with the
      operations of the Standard Library's [SpecFloat].
    - [statistics.mean] and the format specifier [:.2f] belong to the Python
      standard library; they are modelled in [Module Statistics] and
      [Module Format] after their CPython implementation.
    - Methods are programs of a small state, output and exception monad
      [Prog Self A]: the state is the object the method is called on, the
      output is the sequence of calls made on the logger, the notifiers and
      [print].

    The specification names the operations in English; the source is in
    Spanish.  The correspondence is
      record_reading = [leer], average = [promedio], is_in_alert = [en_alerta],
      evaluate_and_notify = [evaluar_y_notificar], evaluate_all =
      [evaluar_sensores], add_manager = [agregar_gestor], send = [enviar],
      record_event = [registrar_evento], window_size = [ventana],
      calibration_offset = [_calibracion]. *)

From Stdlib Require Import ZArith List String Ascii QArith Lia Bool.
From Stdlib Require Import Floats.SpecFloat.
From Stdlib Require Import DecimalString.
Import ListNotations.

Local Open Scope Z_scope.

(** ** Python [float]: IEEE 754 binary64 *)

Definition float : Type := spec_float.

Module Binary64.

Definition prec : Z := 53.
Definition emax : Z := 1024.

(** The float nearest to [m * 2 ^ e]; literals are written with it:
    [1.5] is [of_dyadic 3 (-1)]. *)
Definition of_dyadic (m e : Z) : float := binary_normalize prec emax m e false.

(** [float(n)] for an integer [n]. *)
Definition of_int (n : Z) : float := of_dyadic n 0.

(** The literal [0.0]. *)
Definition zero : float := S754_zero false.

(** [x + y], [x / y] and [abs(x)]. *)
Definition add : float -> float -> float := SFadd prec emax.
Definition div : float -> float -> float := SFdiv prec emax.
Definition abs : float -> float := SFabs.

(** [x >= y] and [x <= y]; both are false when an operand is NaN. *)
Definition ge (x y : float) : bool :=
  match SFcompare x y with
  | Some (Gt | Eq) => true
  | _ => false
  end.
Definition le : float -> float -> bool := SFleb.

Definition is_finite (x : float) : bool :=
  match x with
  | S754_zero _ | S754_finite _ _ _ => true
  | S754_infinity _ | S754_nan => false
  end.

(** [x.as_integer_ratio()]: the exact rational value of a finite float
    ([None] where Python raises, on infinities and NaN). *)
Definition as_integer_ratio (x : float) : option Q :=
  match x with
  | S754_zero _ => Some (0 # 1)
  | S754_finite s m e =>
      let n := if s then Zneg m else Zpos m in
      Some (match e with
            | Z0 => n # 1
            | Zpos k => (n * 2 ^ Zpos k) # 1
            | Zneg k => n # (2 ^ k)%positive
            end)
  | S754_infinity _ | S754_nan => None
  end.

(** [a / b] for positive integers [a], [b] with sign [s]: the quotient
    rounded to the nearest float, ties to even. *)
Definition round_div (s : bool) (a b : positive) : float :=
  let '(mz, ez, lz) := SFdiv_core_binary prec emax (Zpos a) 0 (Zpos b) 0 in
  binary_round_aux prec emax s mz ez lz.

(** [float(q)] for a [Fraction] [q], which is [numerator / denominator]
    on integers.  Python raises OverflowError where the rounded quotient
    leaves the binary64 range; here the rounding then gives an infinity.
    [Statistics.mean] only converts a mean of finite floats, which lies
    between the least and the greatest of them: that conversion does not
    overflow. *)
Definition of_fraction (q : Q) : float :=
  match Qnum q with
  | Z0 => zero
  | Zpos a => round_div false a (Qden q)
  | Zneg a => round_div true a (Qden q)
  end.

End Binary64.

(** ** Exceptions *)

Inductive Excepcion : Type :=
| StatisticsError   (* [statistics.mean] of no data *)
| IndexError.       (* [list.pop] from an empty list *)

Inductive Resultado (A : Type) : Type :=
| Valor (a : A)
| Lanza (e : Excepcion).

Arguments Valor {A} a.
Arguments Lanza {A} e.

(** ** [statistics.mean] on a list of floats *)

Module Statistics.

(** [_sum] keeps the exact sum of the finite elements as a [Fraction]
    (through [as_integer_ratio]) ... *)
Fixpoint exact_sum (data : list float) : Q :=
  match data with
  | [] => 0 # 1
  | x :: rest =>
      match Binary64.as_integer_ratio x with
      | Some q => Qplus q (exact_sum rest)
      | None => exact_sum rest
      end
  end.

(** ... and, apart, the float sum of the elements that are not finite,
    in order, starting from the integer 0 ([None]: there were none). *)
Fixpoint special_sum (acc : option float) (data : list float) : option float :=
  match data with
  | [] => acc
  | x :: rest =>
      if Binary64.is_finite x then special_sum acc rest
      else special_sum (Some (match acc with
                              | None => x
                              | Some a => Binary64.add a x
                              end)) rest
  end.

(** [total / n] as a float, for the non-empty data [x :: rest]: the
    total is the sum of the elements that are not finite when there is
    one, and the exact sum if not. *)
Definition mean_of (x : float) (rest : list float) : float :=
  let data := x :: rest in
  let n := Z.of_nat (List.length data) in
  match special_sum None data with
  | Some total => Binary64.div total (Binary64.of_int n)
  | None => Binary64.of_fraction (Qdiv (exact_sum data) (inject_Z n))
  end.

(** [mean(data)]: raises StatisticsError on empty data. *)
Definition mean (data : list float) : Resultado float :=
  match data with
  | [] => Lanza StatisticsError
  | x :: rest => Valor (mean_of x rest)
  end.

End Statistics.

(** ** The format specifier [:.2f] *)

Module Format.

Local Open Scope string_scope.

(** Decimal digits of a natural number. *)
Definition digits (n : N) : string :=
  NilZero.string_of_uint (N.to_uint n).

(** The integer nearest to [a / b], ties to even ([a >= 0], [b > 0]). *)
Definition round_half_even (a b : Z) : Z :=
  let q := (a / b)%Z in
  let r := (a mod b)%Z in
  match (2 * r ?= b)%Z with
  | Lt => q
  | Gt => (q + 1)%Z
  | Eq => if Z.even q then q else (q + 1)%Z
  end.

(** Hundredths of the magnitude [m * 2 ^ e], rounded. *)
Definition hundredths (m : positive) (e : Z) : Z :=
  match e with
  | Z0 => (Zpos m * 100)%Z
  | Zpos k => (Zpos m * 2 ^ Zpos k * 100)%Z
  | Zneg k => round_half_even (Zpos m * 100) (2 ^ Zpos k)
  end.

Definition fixed2 (h : Z) : string :=
  let cents := Z.to_N (h mod 100) in
  digits (Z.to_N (h / 100)) ++ "."
    ++ (if (cents <? 10)%N then "0" else "") ++ digits cents.

Definition sign (s : bool) : string := if s then "-" else "".

(** [format(x, '.2f')]. *)
Definition format_2f (x : float) : string :=
  match x with
  | S754_nan => "nan"
  | S754_infinity s => sign s ++ "inf"
  | S754_zero s => sign s ++ "0.00"
  | S754_finite s m e => sign s ++ fixed2 (hundredths m e)
  end.

End Format.

(** ** Output: the calls that leave the program

    [NotificadorEmail.enviar], [NotificadorWebhook.enviar] and
    [RegistroEvento.registrar_evento] only print; [evaluar_sensores] prints
    directly.  A run is observed through the sequence of these calls. *)

Inductive Notificador : Type :=
| NotificadorEmail (_destinatario : string)
| NotificadorWebhook (_url : string).

Inductive Efecto : Type :=
| Registro (evento mensaje : string)          (* [logger.registrar_evento(evento, mensaje)] *)
| Envio (n : Notificador) (mensaje : string)  (* [n.enviar(mensaje)] *)
| Impresion (texto : string).                 (* [print(texto)] *)

(** The line each call prints; [timestamp] is what
    [datetime.now().strftime(...)] gives at the time of the call. *)
Definition linea (timestamp : string) (e : Efecto) : string :=
  match e with
  | Registro evento mensaje => "[" ++ timestamp ++ "] " ++ evento ++ ": " ++ mensaje
  | Envio (NotificadorEmail dest) mensaje => "[EMAIL a " ++ dest ++ "] " ++ mensaje
  | Envio (NotificadorWebhook url) mensaje => "[WEBHOOK " ++ url ++ "] " ++ mensaje
  | Impresion texto => texto
  end%string.

(** ** Methods as programs

    A method called on an object of type [Self] may print, change the
    object, and return a value or raise. *)

Definition Prog (Self A : Type) : Type :=
  Self -> list Efecto * Self * Resultado A.

Definition ejecutar {Self A} (p : Prog Self A) (self : Self) :
  list Efecto * Self * Resultado A := p self.

Definition ret {Self A} (a : A) : Prog Self A :=
  fun self => ([], self, Valor a).

Definition bind {Self A B} (p : Prog Self A) (k : A -> Prog Self B) : Prog Self B :=
  fun self =>
    match p self with
    | (out1, self1, Valor a) =>
        let '(out2, self2, r) := k a self1 in (out1 ++ out2, self2, r)
    | (out1, self1, Lanza e) => (out1, self1, Lanza e)
    end.

Declare Scope prog_scope.
Delimit Scope prog_scope with prog.
Notation "x <- p ;; k" := (bind p (fun x => k))
  (at level 100, p at next level, right associativity) : prog_scope.
Notation "p ;; k" := (bind p (fun _ => k))
  (at level 100, right associativity) : prog_scope.
Local Open Scope prog_scope.

(** Read [self]; replace [self]; make a call that prints; return or raise
    what a pure computation did. *)
Definition obtener {Self} : Prog Self Self :=
  fun self => ([], self, Valor self).

Definition asignar {Self} (nuevo : Self) : Prog Self unit :=
  fun _ => ([], nuevo, Valor tt).

Definition emitir {Self} (e : Efecto) : Prog Self unit :=
  fun self => ([e], self, Valor tt).

Definition elevar {Self A} (r : Resultado A) : Prog Self A :=
  fun self => ([], self, r).

Definition lanzar {Self A} (e : Excepcion) : Prog Self A :=
  elevar (Lanza e).

(** [for x in xs: cuerpo(x)] over values that the body does not change. *)
Fixpoint para_cada {Self X} (xs : list X) (cuerpo : X -> Prog Self unit) : Prog Self unit :=
  match xs with
  | [] => ret tt
  | x :: resto => cuerpo x ;; para_cada resto cuerpo
  end.

(** [for o in objetos: o.metodo()]: the method runs on each object of the
    list in turn, and the list keeps what the method made of each; an
    exception ends the loop. *)
Fixpoint en_cada {X} (metodo : Prog X unit) (objetos : list X) :
  list Efecto * list X * Resultado unit :=
  match objetos with
  | [] => ([], [], Valor tt)
  | o :: resto =>
      match metodo o with
      | (out1, o', Valor _) =>
          let '(out2, resto', r) := en_cada metodo resto in
          (out1 ++ out2, o' :: resto', r)
      | (out1, o', Lanza e) => (out1, o' :: resto, Lanza e)
      end
  end.

(** Run a program of an attribute of [self] on that attribute. *)
Definition en_campo {Self Campo A} (campo : Self -> Campo)
  (con_campo : Self -> Campo -> Self) (p : Prog Campo A) : Prog Self A :=
  fun self =>
    let '(out, c, r) := p (campo self) in (out, con_campo self c, r).

(** ** [Sensor] and its four subclasses

    [Sensor] is abstract; an object is of one of the four subclasses, each
    of which adds one threshold to the inherited fields.  [clase] records
    the subclass and its threshold. *)

Inductive Clase : Type :=
| SensorTemperatura (umbral : float)
| SensorVibracion (rms_umbral : float)
| SensorHumedad (humedad_max : float)
| SensorContaminacionAire (umbral_particulas_por_millon : float).

Record Sensor : Type := mkSensor {
  id : string;
  ventana : Z;
  _calibracion : float;
  _buffer : list float;
  clase : Clase
}.

(** A sensor as its constructor makes it when [_buffer] is left to its
    default factory. *)
Definition nuevo (id : string) (ventana : Z) (_calibracion : float)
  (clase : Clase) : Sensor :=
  mkSensor id ventana _calibracion [] clase.

(** The assignment [self._buffer = b]. *)
Definition con_buffer (self : Sensor) (b : list float) : Sensor :=
  mkSensor (id self) (ventana self) (_calibracion self) b (clase self).

(** [self._buffer.append(v)] and [self._buffer.pop(0)]. *)
Definition append (v : float) : Prog Sensor unit :=
  self <- obtener ;;
  asignar (con_buffer self (_buffer self ++ [v])).

Definition pop_0 : Prog Sensor float :=
  self <- obtener ;;
  match _buffer self with
  | [] => lanzar IndexError
  | x :: resto => asignar (con_buffer self resto) ;; ret x
  end.

Definition leer (valor : float) : Prog Sensor unit :=
  self <- obtener ;;
  let v := Binary64.add valor (_calibracion self) in
  append v ;;
  self <- obtener ;;
  if Z.of_nat (List.length (_buffer self)) >? ventana self
  then pop_0 ;; ret tt
  else ret tt.

Definition promedio : Prog Sensor float :=
  self <- obtener ;;
  match _buffer self with
  | [] => ret Binary64.zero
  | _ :: _ => elevar (Statistics.mean (_buffer self))
  end.

Definition en_alerta : Prog Sensor bool :=
  self <- obtener ;;
  match clase self with
  | SensorTemperatura umbral =>
      p <- promedio ;; ret (Binary64.ge p umbral)
  | SensorVibracion rms_umbral =>
      p <- promedio ;; ret (Binary64.ge (Binary64.abs p) rms_umbral)
  | SensorHumedad humedad_max =>
      p <- promedio ;; ret (Binary64.ge p humedad_max)
  | SensorContaminacionAire umbral_particulas_por_millon =>
      p <- promedio ;; ret (Binary64.ge p umbral_particulas_por_millon)
  end.

(** ** [RegistroEvento], the notifiers and [GestorAlertas] *)

(** [RegistroEvento.__new__] always returns the one instance. *)
Inductive RegistroEvento : Type :=
| _instance.

Definition registrar_evento {Self} (evento mensaje : string) : Prog Self unit :=
  emitir (Registro evento mensaje).

Definition enviar {Self} (n : Notificador) (mensaje : string) : Prog Self unit :=
  emitir (Envio n mensaje).

Definition print {Self} (texto : string) : Prog Self unit :=
  emitir (Impresion texto).

Record GestorAlertas : Type := mkGestorAlertas {
  _sensores : list Sensor;
  _notificadores : list Notificador;
  _logger : RegistroEvento
}.

Definition con_sensores (self : GestorAlertas) (sensores : list Sensor) : GestorAlertas :=
  mkGestorAlertas sensores (_notificadores self) (_logger self).

(** The body of [for s in self._sensores], a program of the sensor [s]. *)
Definition evaluar_sensor (notificadores : list Notificador) : Prog Sensor unit :=
  (alerta <- en_alerta ;;
   if alerta : bool then
     s <- obtener ;;
     avg <- promedio ;;
     let msg := "ALERTA: Sensor " ++ id s ++ " en umbral (avg="
                  ++ Format.format_2f avg ++ ")" in
     registrar_evento "ALERTA ACTIVA" msg ;;
     para_cada notificadores (fun n =>
       enviar n msg ;;
       s <- obtener ;;
       registrar_evento "NOTIFICACIÓN ENVIADA" ("Notificación enviada para " ++ id s))
   else
     s <- obtener ;;
     registrar_evento "SIN ALERTA" ("Sensor " ++ id s ++ " dentro de los límites."))%string.

Definition evaluar_y_notificar : Prog GestorAlertas unit :=
  registrar_evento "EVALUACIÓN INICIADA" "Comenzando a evaluar sensores..." ;;
  self <- obtener ;;
  en_campo _sensores con_sensores (en_cada (evaluar_sensor (_notificadores self))).

(** ** [PlantaIndustrial] *)

Record PlantaIndustrial : Type := mkPlantaIndustrial {
  _gestores : list GestorAlertas
}.

Definition agregar_gestor (gestor : GestorAlertas) : Prog PlantaIndustrial unit :=
  self <- obtener ;;
  asignar (mkPlantaIndustrial (_gestores self ++ [gestor])).

Definition evaluar_sensores : Prog PlantaIndustrial unit :=
  print (String "010" "Inicia evaluación...") ;;
  en_campo _gestores (fun _ gestores => mkPlantaIndustrial gestores)
    (en_cada evaluar_y_notificar) ;;
  print "... Evaluación terminada".

(** ** The scenarios of [main()]

    [main()] builds a sensor and a manager that holds it, and calls
    [leer] on the sensor between two evaluation cycles. *)

(** [s.leer(valor)] for the sensors [s] that the manager holds. *)
Definition leer_en_gestor (valor : float) : Prog GestorAlertas unit :=
  en_campo _sensores con_sensores (en_cada (leer valor)).

Definition escenario (primera segunda : float) : Prog GestorAlertas unit :=
  leer_en_gestor primera ;;
  evaluar_y_notificar ;;
  leer_en_gestor segunda ;;
  evaluar_y_notificar.

(** The default window of a sensor. *)
Definition ventana_por_defecto : Z := 5.

Definition gestor_temp : GestorAlertas :=
  mkGestorAlertas
    [nuevo "temperatura_01" ventana_por_defecto Binary64.zero
       (SensorTemperatura (Binary64.of_int 80))]
    [NotificadorEmail "temp@test.com"] _instance.

Definition gestor_vibr : GestorAlertas :=
  mkGestorAlertas
    [nuevo "vibracion_02" ventana_por_defecto Binary64.zero
       (SensorVibracion (Binary64.of_dyadic 5 (-1)))]
    [NotificadorWebhook "http://testVibracion.com"] _instance.

Definition gestor_hum : GestorAlertas :=
  mkGestorAlertas
    [nuevo "humedad_04" ventana_por_defecto Binary64.zero
       (SensorHumedad (Binary64.of_int 70))]
    [NotificadorEmail "humedad@test.com"] _instance.

(** ** What the methods compute, in closed form *)

(** The adjusted value that [leer] stores for the raw value [valor]. *)
Definition ajustado (self : Sensor) (valor : float) : float :=
  Binary64.add valor (_calibracion self).

(** The buffer that one call [leer(valor)] leaves. *)
Definition buffer_tras_leer (self : Sensor) (valor : float) : list float :=
  let b := _buffer self ++ [ajustado self valor] in
  if Z.of_nat (List.length b) >? ventana self then tl b else b.

(** The last [n] elements of a list, in order. *)
Definition ultimos {A} (n : nat) (l : list A) : list A :=
  skipn (List.length l - n) l.

(** The value of the property [promedio]. *)
Definition valor_promedio (self : Sensor) : float :=
  match _buffer self with
  | [] => Binary64.zero
  | x :: resto => Statistics.mean_of x resto
  end.

(** The threshold of a sensor, whatever its subclass calls it. *)
Definition umbral_de (self : Sensor) : float :=
  match clase self with
  | SensorTemperatura u | SensorVibracion u
  | SensorHumedad u | SensorContaminacionAire u => u
  end.

(** The value of [en_alerta()]. *)
Definition valor_alerta (self : Sensor) : bool :=
  match clase self with
  | SensorVibracion u => Binary64.ge (Binary64.abs (valor_promedio self)) u
  | SensorTemperatura u | SensorHumedad u | SensorContaminacionAire u =>
      Binary64.ge (valor_promedio self) u
  end.

(** The message [evaluar_y_notificar] builds for a sensor in alert. *)
Definition mensaje_alerta (s : Sensor) : string :=
  ("ALERTA: Sensor " ++ id s ++ " en umbral (avg="
     ++ Format.format_2f (valor_promedio s) ++ ")")%string.

(** The sequence of calls the specification gives for one sensor: in the
    alert case the log "ALERTA ACTIVA" (ALERT ACTIVE), then for each
    notifier in registration order a send followed by the log
    "NOTIFICACIÓN ENVIADA" (NOTIFICATION SENT); otherwise the single log
    "SIN ALERTA" (NO ALERT). *)
Definition traza_sensor (notificadores : list Notificador) (s : Sensor) : list Efecto :=
  if valor_alerta s then
    Registro "ALERTA ACTIVA" (mensaje_alerta s)
      :: flat_map (fun n =>
           [Envio n (mensaje_alerta s);
            Registro "NOTIFICACIÓN ENVIADA" ("Notificación enviada para " ++ id s)])
         notificadores
  else
    [Registro "SIN ALERTA" ("Sensor " ++ id s ++ " dentro de los límites.")].

(** The sequence the specification gives for one evaluation cycle: the log
    "EVALUACIÓN INICIADA" (EVALUATION STARTED), then the sensors in
    registration order. *)
Definition traza_gestor (g : GestorAlertas) : list Efecto :=
  Registro "EVALUACIÓN INICIADA" "Comenzando a evaluar sensores..."
    :: flat_map (traza_sensor (_notificadores g)) (_sensores g).

(** The sends of a trace, in order: which notifier, which message. *)
Fixpoint envios (out : list Efecto) : list (Notificador * string) :=
  match out with
  | [] => []
  | Envio n mensaje :: resto => (n, mensaje) :: envios resto
  | _ :: resto => envios resto
  end.

(** The number of elements that [leer] keeps: the window, or the length of
    a buffer that is longer than the window to begin with (one call removes
    one element only). *)
Definition capacidad (s : Sensor) : nat :=
  Nat.max (List.length (_buffer s)) (Z.to_nat (ventana s)).

(** The sends made for one sensor: one per registered notifier, in
    registration order, if the sensor is in alert; none otherwise. *)
Definition envios_sensor (notificadores : list Notificador) (s : Sensor) :
  list (Notificador * string) :=
  if valor_alerta s
  then map (fun n => (n, mensaje_alerta s)) notificadores
  else [].

(** A call that a run of the manager may make: on the logger or on a
    notifier, never [print]. *)
Definition registro_o_envio (e : Efecto) : Prop :=
  match e with
  | Registro _ _ | Envio _ _ => True
  | Impresion _ => False
  end.

(** ** More of the program: repeated cycles, one sensor of a manager,
    the log entries of a kind, and the factory of [RegistroEvento] *)

(** [for _ in range(n): p()]. *)
Fixpoint repetir {Self} (n : nat) (p : Prog Self unit) : Prog Self unit :=
  match n with
  | O => ret tt
  | S k => p ;; repetir k p
  end.



(** The messages of the log entries of kind [evento] in a trace, in order. *)
Fixpoint registros (evento : string) (out : list Efecto) : list string :=
  match out with
  | [] => []
  | Registro e mensaje :: resto =>
      if String.eqb e evento then mensaje :: registros evento resto
      else registros evento resto
  | _ :: resto => registros evento resto
  end.

(** The class [RegistroEvento] with its class attribute [_instance], and
    the memory objects are made in: an object is known by its address, and
    [object.__new__] takes the next free one. *)
Record Memoria : Type := mkMemoria {
  RegistroEvento_instance : option nat;   (* [RegistroEvento._instance] *)
  libre : nat                             (* the next free address *)
}.

(** [super(RegistroEvento, cls).__new__(cls)]. *)
Definition object_new : Prog Memoria nat :=
  m <- obtener ;;
  asignar (mkMemoria (RegistroEvento_instance m) (S (libre m))) ;;
  ret (libre m).

(** [RegistroEvento.__new__(cls)]; it returns what [cls._instance] holds. *)
Definition RegistroEvento_new : Prog Memoria (option nat) :=
  m <- obtener ;;
  match RegistroEvento_instance m with
  | None =>
      o <- object_new ;;
      m <- obtener ;;
      asignar (mkMemoria (Some o) (libre m))
  | Some _ => ret tt
  end ;;
  m <- obtener ;;
  ret (RegistroEvento_instance m).

(** ** The program monad: how programs run *)

Section Ejecucion.

Context {Self : Type}.

Lemma ejecutar_bind {A B} (p : Prog Self A) (k : A -> Prog Self B)
  self out1 self1 a out2 self2 r :
  ejecutar p self = (out1, self1, Valor a) ->
  ejecutar (k a) self1 = (out2, self2, r) ->
  ejecutar (bind p k) self = (out1 ++ out2, self2, r).
Proof.
  unfold ejecutar, bind. intros -> ->. reflexivity.
Qed.

Lemma ejecutar_bind_eq {A B} (p : Prog Self A) (k : A -> Prog Self B) self :
  ejecutar (bind p k) self =
  match ejecutar p self with
  | (out1, self1, Valor a) =>
      let '(out2, self2, r) := ejecutar (k a) self1 in (out1 ++ out2, self2, r)
  | (out1, self1, Lanza e) => (out1, self1, Lanza e)
  end.
Proof. reflexivity. Qed.

Lemma ejecutar_obtener (self : Self) :
  ejecutar obtener self = ([], self, Valor self).
Proof. reflexivity. Qed.

Lemma ejecutar_ret {A} (a : A) (self : Self) :
  ejecutar (ret a) self = ([], self, Valor a).
Proof. reflexivity. Qed.

Lemma ejecutar_emitir (e : Efecto) (self : Self) :
  ejecutar (emitir e) self = ([e], self, Valor tt).
Proof. reflexivity. Qed.

(** A loop whose body prints [f x], returns and leaves [self] as it was
    prints the [f x] in the order of the list. *)
Lemma ejecutar_para_cada {X} (xs : list X) (cuerpo : X -> Prog Self unit)
  (f : X -> list Efecto) self :
  (forall x, ejecutar (cuerpo x) self = (f x, self, Valor tt)) ->
  ejecutar (para_cada xs cuerpo) self = (flat_map f xs, self, Valor tt).
Proof.
  intros Hcuerpo. induction xs as [|x xs IH]; [reflexivity|].
  cbn [para_cada flat_map].
  eapply ejecutar_bind; [apply Hcuerpo | exact IH].
Qed.

End Ejecucion.

Lemma ejecutar_en_campo {Self Campo A} (campo : Self -> Campo)
  (con_campo : Self -> Campo -> Self) (p : Prog Campo A) (self : Self) :
  ejecutar (en_campo campo con_campo p) self =
  let '(out, c, r) := ejecutar p (campo self) in (out, con_campo self c, r).
Proof. reflexivity. Qed.

(** One step of a program: run the first call, whose result a lemma gives. *)
Ltac paso :=
  rewrite ejecutar_bind_eq;
  rewrite ?ejecutar_obtener, ?ejecutar_ret, ?ejecutar_emitir;
  cbv beta iota.

(** A method that prints [f o], returns and leaves its object as it was,
    run on every object of a list. *)
Lemma ejecutar_en_cada {X} (metodo : Prog X unit) (f : X -> list Efecto)
  (objetos : list X) :
  (forall o, ejecutar metodo o = (f o, o, Valor tt)) ->
  ejecutar (en_cada metodo) objetos = (flat_map f objetos, objetos, Valor tt).
Proof.
  intros Hmetodo. unfold ejecutar in *.
  induction objetos as [|o resto IH]; [reflexivity|].
  cbn [en_cada flat_map]. rewrite Hmetodo, IH. reflexivity.
Qed.

(** ** Comparison of floats *)

Module Binary64Facts.

Lemma compare_cont_antisym (p q : positive) (c : comparison) :
  Pos.compare_cont (CompOpp c) q p = CompOpp (Pos.compare_cont c p q).
Proof.
  symmetry. apply Pos.compare_cont_antisym.
Qed.

(** [SFcompare] with its arguments exchanged gives the opposite answer. *)
Lemma SFcompare_antisym (x y : float) :
  SFcompare y x = option_map CompOpp (SFcompare x y).
Proof.
  destruct x as [sx|sx| |sx mx ex], y as [sy|sy| |sy my ey];
    try destruct sx; try destruct sy; try reflexivity;
    cbn [SFcompare option_map]; rewrite (Z.compare_antisym ex ey);
    destruct (ex ?= ey); cbn [CompOpp]; try reflexivity;
    rewrite <- (compare_cont_antisym mx my Eq); cbn [CompOpp];
    try rewrite CompOpp_involutive; reflexivity.
Qed.

(** [x >= y] is [y <= x]. *)
Lemma ge_le (x y : float) : Binary64.ge x y = Binary64.le y x.
Proof.
  unfold Binary64.ge, Binary64.le, SFleb.
  rewrite (SFcompare_antisym x y).
  destruct (SFcompare x y) as [[ | | ]|]; reflexivity.
Qed.

(** A float that is not NaN is [>=] itself. *)
Lemma ge_refl (x : float) : x <> S754_nan -> Binary64.ge x x = true.
Proof.
  intros Hx. unfold Binary64.ge.
  destruct x as [sx|sx| |sx mx ex]; try destruct sx;
    try reflexivity; try contradiction;
    cbn [SFcompare]; rewrite Z.compare_refl, Pos.compare_cont_refl;
    reflexivity.
Qed.

Lemma abs_zero : Binary64.abs Binary64.zero = Binary64.zero.
Proof. reflexivity. Qed.

End Binary64Facts.

(** ** The methods of [Sensor] in closed form *)

Lemma con_buffer_mismo (s : Sensor) : con_buffer s (_buffer s) = s.
Proof. destruct s; reflexivity. Qed.

(** [leer] prints nothing, never raises, and leaves [buffer_tras_leer]. *)
Lemma leer_ejecutar (s : Sensor) (valor : float) :
  ejecutar (leer valor) s = ([], con_buffer s (buffer_tras_leer s valor), Valor tt).
Proof.
  unfold buffer_tras_leer, ajustado, ejecutar, leer, append, pop_0, bind, obtener, asignar.
  cbn [_buffer con_buffer ventana].
  destruct (Z.of_nat (List.length (_buffer s ++ [Binary64.add valor (_calibracion s)]))
            >? ventana s); [|reflexivity].
  destruct (_buffer s ++ [Binary64.add valor (_calibracion s)]) as [|x resto] eqn:Hb.
  - symmetry in Hb. apply app_cons_not_nil in Hb. contradiction.
  - reflexivity.
Qed.

Lemma promedio_ejecutar (s : Sensor) :
  ejecutar promedio s = ([], s, Valor (valor_promedio s)).
Proof.
  unfold ejecutar, promedio, valor_promedio, bind, obtener.
  destruct (_buffer s); reflexivity.
Qed.

Lemma en_alerta_ejecutar (s : Sensor) :
  ejecutar en_alerta s = ([], s, Valor (valor_alerta s)).
Proof.
  unfold en_alerta, valor_alerta. paso.
  destruct (clase s); paso; rewrite promedio_ejecutar; reflexivity.
Qed.

(** ** One evaluation cycle in closed form *)

(** The loop body prints [traza_sensor], returns and leaves the sensor as
    it was. *)
Lemma evaluar_sensor_ejecutar (notificadores : list Notificador) (s : Sensor) :
  ejecutar (evaluar_sensor notificadores) s
  = (traza_sensor notificadores s, s, Valor tt).
Proof.
  unfold evaluar_sensor, traza_sensor, registrar_evento.
  paso. rewrite en_alerta_ejecutar. cbv beta iota.
  destruct (valor_alerta s); cbn [app].
  - paso. paso. rewrite promedio_ejecutar. cbv beta iota.
    paso. fold (mensaje_alerta s).
    rewrite ejecutar_para_cada
      with (f := fun n =>
                   [Envio n (mensaje_alerta s);
                    Registro "NOTIFICACIÓN ENVIADA"
                      ("Notificación enviada para " ++ id s)]).
    + reflexivity.
    + intros n. reflexivity.
  - paso. reflexivity.
Qed.

Lemma evaluar_y_notificar_ejecutar (g : GestorAlertas) :
  ejecutar evaluar_y_notificar g = (traza_gestor g, g, Valor tt).
Proof.
  unfold evaluar_y_notificar, traza_gestor, registrar_evento.
  paso. paso. rewrite ejecutar_en_campo.
  rewrite ejecutar_en_cada with (f := traza_sensor (_notificadores g)).
  - destruct g; reflexivity.
  - apply evaluar_sensor_ejecutar.
Qed.

(** ** The moving window *)

Section Ultimos.

Context {A : Type}.
Implicit Types (l : list A) (n : nat).

Lemma ultimos_length n l :
  List.length (ultimos n l) = Nat.min n (List.length l).
Proof. unfold ultimos. rewrite length_skipn. lia. Qed.

Lemma ultimos_todo n l :
  (List.length l <= n)%nat -> ultimos n l = l.
Proof.
  intros Hn. unfold ultimos.
  replace (List.length l - n)%nat with 0%nat by lia. reflexivity.
Qed.

Lemma ultimos_app n l1 l2 :
  (n <= List.length l2)%nat -> ultimos n (l1 ++ l2) = ultimos n l2.
Proof.
  intros Hn. unfold ultimos.
  rewrite skipn_app, length_app.
  rewrite (skipn_all2 l1) by lia. cbn [app]. f_equal. lia.
Qed.

(** Cutting to the last [n] elements before more elements arrive does
    not change the last [n] elements afterwards. *)
Lemma ultimos_ultimos_app n l1 l2 :
  ultimos n (ultimos n l1 ++ l2) = ultimos n (l1 ++ l2).
Proof.
  unfold ultimos at 1 3.
  rewrite !skipn_app, !length_app, ultimos_length.
  unfold ultimos. rewrite skipn_skipn.
  f_equal; f_equal; lia.
Qed.

(** With one element more than [n], the last [n] are all but the first. *)
Lemma ultimos_tl n l :
  List.length l = S n -> ultimos n l = tl l.
Proof.
  intros Hl. unfold ultimos. rewrite Hl.
  replace (S n - n)%nat with 1%nat by lia.
  destruct l; reflexivity.
Qed.

End Ultimos.

(** One reading leaves the last [capacidad s] elements of the buffer
    extended by the adjusted value. *)
Lemma buffer_tras_leer_ultimos (s : Sensor) (valor : float) :
  buffer_tras_leer s valor
  = ultimos (capacidad s) (_buffer s ++ [ajustado s valor]).
Proof.
  unfold capacidad, buffer_tras_leer.
  assert (Hlen : List.length (_buffer s ++ [ajustado s valor])
                 = S (List.length (_buffer s)))
    by (rewrite length_app; cbn [List.length]; lia).
  destruct (Z.gtb_spec (Z.of_nat (List.length (_buffer s ++ [ajustado s valor])))
              (ventana s)) as [Hgt|Hle].
  - replace (Nat.max (List.length (_buffer s)) (Z.to_nat (ventana s)))
      with (List.length (_buffer s)) by lia.
    symmetry. apply ultimos_tl. exact Hlen.
  - symmetry. apply ultimos_todo. lia.
Qed.

Lemma capacidad_tras_leer (s : Sensor) (valor : float) :
  capacidad (con_buffer s (buffer_tras_leer s valor)) = capacidad s.
Proof.
  rewrite buffer_tras_leer_ultimos.
  unfold capacidad at 1. cbn [con_buffer _buffer ventana].
  rewrite ultimos_length, length_app. cbn [List.length].
  unfold capacidad. lia.
Qed.

(** A sequence of readings, [for v in valores: s.leer(v)]. *)
Lemma leer_todas_ejecutar (valores : list float) (s : Sensor) :
  ejecutar (para_cada valores leer) s
  = ([], con_buffer s (ultimos (capacidad s)
                         (_buffer s ++ map (ajustado s) valores)),
     Valor tt).
Proof.
  revert s. induction valores as [|v valores IH]; intros s.
  - cbn [para_cada map]. rewrite app_nil_r, ultimos_todo
      by (unfold capacidad; lia).
    rewrite con_buffer_mismo. reflexivity.
  - cbn [para_cada map]. paso. rewrite leer_ejecutar. cbv beta iota.
    rewrite IH, capacidad_tras_leer, buffer_tras_leer_ultimos.
    cbn [con_buffer _buffer app].
    rewrite ultimos_ultimos_app, <- app_assoc. reflexivity.
Qed.

(** Within its window, a sensor keeps [ventana] elements. *)
Lemma capacidad_en_ventana (s : Sensor) :
  Z.of_nat (List.length (_buffer s)) <= ventana s ->
  capacidad s = Z.to_nat (ventana s).
Proof. unfold capacidad. lia. Qed.

(** ** [Sensor.leer]: calibration and moving window *)

(** C1.  For every sensor and every raw value, [leer] stores exactly
    [valor + _calibracion] at the end of the buffer and, if the buffer is
    then longer than [ventana], removes the element at index 0, once; it
    prints nothing and does not raise.  Hence on a sensor within its window
    ([len(_buffer) <= ventana], the invariant of the data model: it holds of
    a new sensor and [leer] keeps it), more than [ventana] readings leave
    exactly the last [ventana] adjusted values, in the order of insertion. *)
Theorem leer_fifo (s : Sensor) (valor : float) :
  ejecutar (leer valor) s
  = ([], con_buffer s
           (let b := _buffer s ++ [Binary64.add valor (_calibracion s)] in
            if Z.of_nat (List.length b) >? ventana s then tl b else b),
     Valor tt)
  /\ forall valores : list float,
       Z.of_nat (List.length (_buffer s)) <= ventana s ->
       ventana s < Z.of_nat (List.length valores) ->
       let recientes :=
         ultimos (Z.to_nat (ventana s))
           (map (fun v => Binary64.add v (_calibracion s)) valores) in
       ejecutar (para_cada valores leer) s = ([], con_buffer s recientes, Valor tt)
       /\ Z.of_nat (List.length recientes) = ventana s.
Proof.
  split; [apply leer_ejecutar|].
  intros valores Hs Hmas recientes. subst recientes.
  assert (Hmap : List.length (map (fun v => Binary64.add v (_calibracion s)) valores)
                 = List.length valores) by apply length_map.
  split.
  - rewrite leer_todas_ejecutar, capacidad_en_ventana by exact Hs.
    unfold ajustado. rewrite ultimos_app by lia. reflexivity.
  - rewrite ultimos_length. lia.
Qed.

Lemma leer_fifo_witness :
  let s := mkSensor "temperatura_01" 2 (Binary64.of_dyadic 1 (-1))
             [Binary64.of_int 7] (SensorTemperatura (Binary64.of_int 80)) in
  let valores := [Binary64.of_int 1; Binary64.of_int 2; Binary64.of_int 3] in
  Z.of_nat (List.length (_buffer s)) <= ventana s
  /\ ventana s < Z.of_nat (List.length valores)
  /\ ejecutar (para_cada valores leer) s
     = ([], con_buffer s [Binary64.of_dyadic 5 (-1); Binary64.of_dyadic 7 (-1)],
        Valor tt).
Proof.
  intros s valores.
  assert (H1 : Z.of_nat (List.length (_buffer s)) <= ventana s) by (vm_compute; discriminate).
  assert (H2 : ventana s < Z.of_nat (List.length valores)) by reflexivity.
  split; [exact H1|]. split; [exact H2|].
  exact (proj1 (proj2 (leer_fifo s (Binary64.of_int 0)) valores H1 H2)).
Defined.

(** C2.  On a sensor with a positive window whose buffer is empty, after
    every sequence of [leer] calls (so after each call of a sequence) the
    buffer is no longer than the window. *)
Theorem leer_ventana (s : Sensor) (valores : list float) :
  0 < ventana s ->
  _buffer s = [] ->
  exists s',
    ejecutar (para_cada valores leer) s = ([], s', Valor tt)
    /\ ventana s' = ventana s
    /\ Z.of_nat (List.length (_buffer s')) <= ventana s.
Proof.
  intros Hpos Hvacio.
  eexists. split; [apply leer_todas_ejecutar|].
  cbn [con_buffer ventana _buffer]. split; [reflexivity|].
  rewrite ultimos_length, capacidad_en_ventana
    by (rewrite Hvacio; cbn [List.length]; lia).
  lia.
Qed.

Lemma leer_ventana_witness :
  let s := nuevo "humedad_04" 2 Binary64.zero (SensorHumedad (Binary64.of_int 70)) in
  let valores := [Binary64.of_int 65; Binary64.of_int 75; Binary64.of_int 85] in
  0 < ventana s
  /\ _buffer s = []
  /\ exists s',
       ejecutar (para_cada valores leer) s = ([], s', Valor tt)
       /\ ventana s' = ventana s
       /\ Z.of_nat (List.length (_buffer s')) <= ventana s.
Proof.
  intros s valores.
  split; [reflexivity|]. split; [reflexivity|].
  apply (leer_ventana s valores); reflexivity.
Defined.

(** ** [Sensor.promedio] *)

(** With finite data only, [_sum] meets no special value. *)
Lemma special_sum_finite (data : list float) (acc : option float) :
  forallb Binary64.is_finite data = true ->
  Statistics.special_sum acc data = acc.
Proof.
  revert acc. induction data as [|x data IH]; intros acc Hfin; [reflexivity|].
  cbn [forallb] in Hfin. apply andb_true_iff in Hfin as [Hx Hdata].
  cbn [Statistics.special_sum]. rewrite Hx. apply IH, Hdata.
Qed.

(** The mean of finite data is the float nearest to the exact sum divided
    by the number of elements. *)
Lemma mean_of_finite (x : float) (resto : list float) :
  forallb Binary64.is_finite (x :: resto) = true ->
  Statistics.mean_of x resto
  = Binary64.of_fraction
      (Qdiv (Statistics.exact_sum (x :: resto))
            (inject_Z (Z.of_nat (List.length (x :: resto))))).
Proof.
  intros Hfin. unfold Statistics.mean_of.
  rewrite special_sum_finite by exact Hfin. reflexivity.
Qed.

(** C3.  [promedio] returns a value [p], prints nothing and leaves the
    sensor as it was.  On an empty buffer [p] is exactly [0.0]; on a
    non-empty buffer [p] is [statistics.mean] of the buffer, which for
    finite values is the exact sum of the buffer divided by its length,
    rounded to the nearest float. *)
Theorem promedio_media (s : Sensor) :
  exists p : float,
    ejecutar promedio s = ([], s, Valor p)
    /\ (_buffer s = [] -> p = Binary64.zero)
    /\ (_buffer s <> [] -> Statistics.mean (_buffer s) = Valor p)
    /\ (_buffer s <> [] ->
        forallb Binary64.is_finite (_buffer s) = true ->
        p = Binary64.of_fraction
              (Qdiv (Statistics.exact_sum (_buffer s))
                    (inject_Z (Z.of_nat (List.length (_buffer s)))))).
Proof.
  exists (valor_promedio s). split; [apply promedio_ejecutar|].
  unfold valor_promedio. destruct (_buffer s) as [|x resto].
  - split; [reflexivity|]. split; intros H; contradiction.
  - split; [discriminate|]. split; [reflexivity|].
    intros _ Hfin. apply mean_of_finite, Hfin.
Qed.

Lemma promedio_media_witness :
  let s := mkSensor "humedad_04" 5 Binary64.zero
             [Binary64.of_int 65; Binary64.of_int 75]
             (SensorHumedad (Binary64.of_int 70)) in
  _buffer s <> []
  /\ forallb Binary64.is_finite (_buffer s) = true
  /\ ejecutar promedio s = ([], s, Valor (Binary64.of_int 70))
  /\ Statistics.mean (_buffer s) = Valor (Binary64.of_int 70).
Proof.
  intros s.
  assert (H1 : _buffer s <> []) by discriminate.
  assert (H2 : forallb Binary64.is_finite (_buffer s) = true) by reflexivity.
  split; [exact H1|]. split; [exact H2|].
  destruct (promedio_media s) as [p [Hp [_ [Hmean Hfin]]]].
  specialize (Hmean H1). specialize (Hfin H1 H2).
  assert (Hval : p = Binary64.of_int 70) by (rewrite Hfin; vm_compute; reflexivity).
  rewrite Hp, Hmean, Hval. split; reflexivity.
Defined.

(** ** [en_alerta] in the four subclasses *)

(** C4.  In [SensorTemperatura], [SensorHumedad] and
    [SensorContaminacionAire], [en_alerta()] returns true exactly when
    [promedio >= umbral] for the threshold of the subclass, the boundary
    included: an average equal to the threshold alerts.  A new [SensorHumedad] with [humedad_max = 70.0], no
    calibration and a window of at least 2 is not in alert after the reading
    65.0, and after the further reading 75.0 its average is 70.0 and it is
    in alert. *)
Theorem en_alerta_umbral :
  (forall (s : Sensor) (u : float),
      clase s = SensorTemperatura u \/ clase s = SensorHumedad u
      \/ clase s = SensorContaminacionAire u ->
      exists (p : float) (b : bool),
        ejecutar promedio s = ([], s, Valor p)
        /\ ejecutar en_alerta s = ([], s, Valor b)
        /\ (b = true <-> Binary64.ge p u = true)
        /\ (p = u -> u <> S754_nan -> b = true))
  /\ (forall (nombre : string) (w : Z),
         2 <= w ->
         exists s1 s2 : Sensor,
           ejecutar (leer (Binary64.of_int 65))
             (nuevo nombre w Binary64.zero (SensorHumedad (Binary64.of_int 70)))
           = ([], s1, Valor tt)
           /\ ejecutar en_alerta s1 = ([], s1, Valor false)
           /\ ejecutar (leer (Binary64.of_int 75)) s1 = ([], s2, Valor tt)
           /\ ejecutar promedio s2 = ([], s2, Valor (Binary64.of_int 70))
           /\ ejecutar en_alerta s2 = ([], s2, Valor true)).
Proof.
  split.
  - intros s u Hclase. exists (valor_promedio s), (valor_alerta s).
    split; [apply promedio_ejecutar|]. split; [apply en_alerta_ejecutar|].
    unfold valor_alerta.
    destruct Hclase as [-> | [-> | ->]];
      (split; [reflexivity | intros -> Hu; apply Binary64Facts.ge_refl, Hu]).
  - intros nombre w Hw.
    set (s0 := nuevo nombre w Binary64.zero (SensorHumedad (Binary64.of_int 70))).
    set (s1 := con_buffer s0 [Binary64.of_int 65]).
    set (s2 := con_buffer s0 [Binary64.of_int 65; Binary64.of_int 75]).
    assert (H1 : buffer_tras_leer s0 (Binary64.of_int 65) = [Binary64.of_int 65]).
    { unfold buffer_tras_leer. cbn [s0 nuevo _buffer ventana app List.length].
      destruct (Z.gtb_spec (Z.of_nat 1) w); [lia | reflexivity]. }
    assert (H2 : buffer_tras_leer s1 (Binary64.of_int 75)
                 = [Binary64.of_int 65; Binary64.of_int 75]).
    { unfold buffer_tras_leer.
      cbn [s1 s0 nuevo con_buffer _buffer ventana app List.length].
      destruct (Z.gtb_spec (Z.of_nat 2) w); [lia | reflexivity]. }
    exists s1, s2.
    split; [rewrite leer_ejecutar, H1; reflexivity|].
    split; [rewrite en_alerta_ejecutar; reflexivity|].
    split; [rewrite leer_ejecutar, H2; reflexivity|].
    split; [rewrite promedio_ejecutar; reflexivity|].
    rewrite en_alerta_ejecutar. reflexivity.
Qed.

Lemma en_alerta_umbral_witness :
  let s := mkSensor "temperatura_01" 5 Binary64.zero
             [Binary64.of_int 75; Binary64.of_int 85]
             (SensorTemperatura (Binary64.of_int 80)) in
  (clase s = SensorTemperatura (Binary64.of_int 80)
   /\ ejecutar en_alerta s = ([], s, Valor true))
  /\ (2 <= 5
      /\ exists s1 s2 : Sensor,
           ejecutar (leer (Binary64.of_int 65))
             (nuevo "humedad_04" 5 Binary64.zero (SensorHumedad (Binary64.of_int 70)))
           = ([], s1, Valor tt)
           /\ ejecutar en_alerta s1 = ([], s1, Valor false)
           /\ ejecutar (leer (Binary64.of_int 75)) s1 = ([], s2, Valor tt)
           /\ ejecutar promedio s2 = ([], s2, Valor (Binary64.of_int 70))
           /\ ejecutar en_alerta s2 = ([], s2, Valor true)).
Proof.
  intros s. split.
  - assert (Hclase : clase s = SensorTemperatura (Binary64.of_int 80)) by reflexivity.
    split; [exact Hclase|].
    destruct (proj1 en_alerta_umbral s (Binary64.of_int 80) (or_introl Hclase))
      as [p [b [Hp [Hb [Hiff _]]]]].
    assert (Hval : p = Binary64.of_int 80).
    { rewrite promedio_ejecutar in Hp. injection Hp as <-. reflexivity. }
    rewrite Hb. replace b with true; [reflexivity|].
    symmetry. apply Hiff. rewrite Hval. reflexivity.
  - assert (Hw : 2 <= 5) by lia.
    split; [exact Hw|].
    exact (proj2 en_alerta_umbral "humedad_04"%string 5 Hw).
Defined.

(** C5.  In [SensorVibracion], [en_alerta()] returns true exactly when
    [abs(promedio) >= rms_umbral].  With [rms_umbral = 2.5] and no
    calibration, the readings [1.5] give the average 1.5 and no alert, and
    the readings [1.5; 3.0] give the average 2.25 and no alert; a new sensor
    with a window of at least 2 holds these readings after [leer(1.5)] and
    [leer(3.0)]. *)
Theorem en_alerta_vibracion :
  (forall (s : Sensor) (u : float),
      clase s = SensorVibracion u ->
      exists (p : float) (b : bool),
        ejecutar promedio s = ([], s, Valor p)
        /\ ejecutar en_alerta s = ([], s, Valor b)
        /\ (b = true <-> Binary64.ge (Binary64.abs p) u = true))
  /\ (forall (nombre : string) (w : Z),
         let vibracion := SensorVibracion (Binary64.of_dyadic 5 (-1)) in
         let s1 := mkSensor nombre w Binary64.zero
                     [Binary64.of_dyadic 3 (-1)] vibracion in
         let s2 := mkSensor nombre w Binary64.zero
                     [Binary64.of_dyadic 3 (-1); Binary64.of_int 3] vibracion in
         ejecutar promedio s1 = ([], s1, Valor (Binary64.of_dyadic 3 (-1)))
         /\ ejecutar en_alerta s1 = ([], s1, Valor false)
         /\ ejecutar promedio s2 = ([], s2, Valor (Binary64.of_dyadic 9 (-2)))
         /\ ejecutar en_alerta s2 = ([], s2, Valor false)
         /\ (2 <= w ->
             ejecutar (leer (Binary64.of_dyadic 3 (-1)))
               (nuevo nombre w Binary64.zero vibracion)
             = ([], s1, Valor tt)
             /\ ejecutar (leer (Binary64.of_int 3)) s1 = ([], s2, Valor tt))).
Proof.
  split.
  - intros s u Hclase. exists (valor_promedio s), (valor_alerta s).
    split; [apply promedio_ejecutar|]. split; [apply en_alerta_ejecutar|].
    unfold valor_alerta. rewrite Hclase. reflexivity.
  - intros nombre w vibracion s1 s2.
    split; [rewrite promedio_ejecutar; reflexivity|].
    split; [rewrite en_alerta_ejecutar; reflexivity|].
    split; [rewrite promedio_ejecutar; reflexivity|].
    split; [rewrite en_alerta_ejecutar; reflexivity|].
    intros Hw. rewrite !leer_ejecutar. unfold buffer_tras_leer.
    cbn [s1 nuevo con_buffer _buffer ventana app List.length].
    destruct (Z.gtb_spec (Z.of_nat 1) w); [lia|].
    destruct (Z.gtb_spec (Z.of_nat 2) w); [lia|].
    split; reflexivity.
Qed.

Lemma en_alerta_vibracion_witness :
  let vibracion := SensorVibracion (Binary64.of_dyadic 5 (-1)) in
  let s0 := nuevo "vibracion_02" 5 Binary64.zero vibracion in
  let s1 := con_buffer s0 [Binary64.of_dyadic 3 (-1)] in
  let s2 := con_buffer s0 [Binary64.of_dyadic 3 (-1); Binary64.of_int 3] in
  (clase s2 = vibracion /\ ejecutar en_alerta s2 = ([], s2, Valor false))
  /\ (2 <= 5
      /\ ejecutar (leer (Binary64.of_dyadic 3 (-1))) s0 = ([], s1, Valor tt)
      /\ ejecutar (leer (Binary64.of_int 3)) s1 = ([], s2, Valor tt)).
Proof.
  intros vibracion s0 s1 s2. split.
  - assert (Hclase : clase s2 = vibracion) by reflexivity.
    split; [exact Hclase|].
    destruct (proj1 en_alerta_vibracion s2 _ Hclase) as [p [b [Hp [Hb Hiff]]]].
    rewrite Hb. destruct b; [|reflexivity].
    assert (Hval : p = Binary64.of_dyadic 9 (-2)).
    { rewrite promedio_ejecutar in Hp. injection Hp as <-. reflexivity. }
    assert (Hge : Binary64.ge (Binary64.abs p) (Binary64.of_dyadic 5 (-1)) = true)
      by (apply Hiff; reflexivity).
    rewrite Hval in Hge. discriminate Hge.
  - assert (Hw : 2 <= 5) by lia.
    split; [exact Hw|].
    exact (proj2 (proj2 (proj2 (proj2
             (proj2 en_alerta_vibracion "vibracion_02"%string 5)))) Hw).
Defined.

(** C8.  [en_alerta()] returns a value on every sensor of every subclass:
    it does not raise, prints nothing and leaves the sensor as it was.  On
    an empty buffer [promedio] is [0.0] and is not computed by
    [statistics.mean]; so a sensor without readings whose threshold is
    [<= 0.0] is in alert (in [SensorVibracion] because [abs(0.0)] is
    [0.0]). *)
Theorem en_alerta_total (s : Sensor) :
  exists b : bool,
    ejecutar en_alerta s = ([], s, Valor b)
    /\ (_buffer s = [] ->
        ejecutar promedio s = ([], s, Valor Binary64.zero)
        /\ (Binary64.le (umbral_de s) Binary64.zero = true -> b = true)).
Proof.
  exists (valor_alerta s). split; [apply en_alerta_ejecutar|].
  intros Hvacio.
  assert (Hcero : valor_promedio s = Binary64.zero)
    by (unfold valor_promedio; rewrite Hvacio; reflexivity).
  split; [rewrite promedio_ejecutar, Hcero; reflexivity|].
  unfold valor_alerta, umbral_de. rewrite Hcero.
  destruct (clase s) as [u|u|u|u]; intros Hu;
    rewrite ?Binary64Facts.abs_zero, Binary64Facts.ge_le; exact Hu.
Qed.

Lemma en_alerta_total_witness :
  let s := nuevo "vibracion_02" 5 Binary64.zero
             (SensorVibracion (Binary64.of_dyadic (-5) (-1))) in
  _buffer s = []
  /\ Binary64.le (umbral_de s) Binary64.zero = true
  /\ ejecutar en_alerta s = ([], s, Valor true).
Proof.
  intros s.
  assert (H1 : _buffer s = []) by reflexivity.
  assert (H2 : Binary64.le (umbral_de s) Binary64.zero = true) by reflexivity.
  split; [exact H1|]. split; [exact H2|].
  destruct (en_alerta_total s) as [b [Hb Hvacio]].
  rewrite Hb, (proj2 (Hvacio H1) H2). reflexivity.
Defined.

(** ** [GestorAlertas.evaluar_y_notificar] *)

Lemma envios_app (out1 out2 : list Efecto) :
  envios (out1 ++ out2) = envios out1 ++ envios out2.
Proof.
  induction out1 as [|[evento mensaje|n mensaje|texto] out1 IH];
    cbn [app envios]; rewrite ?IH; reflexivity.
Qed.

Lemma envios_flat_map {X} (f : X -> list Efecto) (xs : list X) :
  envios (flat_map f xs) = flat_map (fun x => envios (f x)) xs.
Proof.
  induction xs as [|x xs IH]; [reflexivity|].
  cbn [flat_map]. rewrite envios_app, IH. reflexivity.
Qed.

Lemma envios_traza_sensor (notificadores : list Notificador) (s : Sensor) :
  envios (traza_sensor notificadores s) = envios_sensor notificadores s.
Proof.
  unfold traza_sensor, envios_sensor.
  destruct (valor_alerta s); [|reflexivity].
  cbn [envios]. rewrite envios_flat_map. cbn [envios].
  induction notificadores as [|n ns IH]; [reflexivity|].
  cbn [flat_map map app]. rewrite IH. reflexivity.
Qed.

Lemma length_flat_map_envios_sensor (ns : list Notificador) (ss : list Sensor) :
  List.length (flat_map (envios_sensor ns) ss)
  = (List.length (filter valor_alerta ss) * List.length ns)%nat.
Proof.
  induction ss as [|s ss IH]; [reflexivity|].
  cbn [flat_map filter]. rewrite length_app, IH. unfold envios_sensor.
  destruct (valor_alerta s); cbn [List.length]; rewrite ?length_map; lia.
Qed.

(** C6.  One call of [evaluar_y_notificar()] returns, and its sends are, in
    order: for each sensor for which [en_alerta()] is true, one [enviar] on
    each registered notifier, with the alert message built for that sensor;
    for a sensor for which [en_alerta()] is false, none.  So there are as
    many sends as sensors in alert times registered notifiers.
    ([valor_alerta s] is what [en_alerta()] returns on [s], and
    [valor_promedio s] what [promedio] does: lemmas [en_alerta_ejecutar]
    and [promedio_ejecutar].) *)
Theorem evaluar_y_notificar_envios (g : GestorAlertas) :
  exists out : list Efecto,
    ejecutar evaluar_y_notificar g = (out, g, Valor tt)
    /\ envios out
       = flat_map (fun s =>
                     if valor_alerta s
                     then map (fun n => (n, mensaje_alerta s)) (_notificadores g)
                     else [])
           (_sensores g)
    /\ List.length (envios out)
       = (List.length (filter valor_alerta (_sensores g))
          * List.length (_notificadores g))%nat.
Proof.
  exists (traza_gestor g). split; [apply evaluar_y_notificar_ejecutar|].
  assert (Henvios : envios (traza_gestor g)
                    = flat_map (envios_sensor (_notificadores g)) (_sensores g)).
  { unfold traza_gestor. cbn [envios]. rewrite envios_flat_map.
    apply flat_map_ext. intros s. apply envios_traza_sensor. }
  split; [exact Henvios|].
  rewrite Henvios. apply length_flat_map_envios_sensor.
Qed.

(** C7.  The calls of one run of [evaluar_y_notificar()] are, in this
    order: the log of kind "EVALUACIÓN INICIADA" (EVALUATION STARTED in the
    specification); then for each sensor in registration order either, if
    it is in alert, the log "ALERTA ACTIVA" (ALERT ACTIVE) followed for each
    notifier in registration order by its [enviar] and right after it the
    log "NOTIFICACIÓN ENVIADA" (NOTIFICATION SENT), or else the single log
    "SIN ALERTA" (NO ALERT).  All the notifiers of a sensor come before the
    calls of the next sensor. *)
Theorem evaluar_y_notificar_traza (g : GestorAlertas) :
  ejecutar evaluar_y_notificar g
  = (Registro "EVALUACIÓN INICIADA" "Comenzando a evaluar sensores..."
       :: flat_map (fun s =>
            if valor_alerta s then
              Registro "ALERTA ACTIVA" (mensaje_alerta s)
                :: flat_map (fun n =>
                     [Envio n (mensaje_alerta s);
                      Registro "NOTIFICACIÓN ENVIADA"
                        ("Notificación enviada para " ++ id s)])
                   (_notificadores g)
            else
              [Registro "SIN ALERTA"
                 ("Sensor " ++ id s ++ " dentro de los límites.")])
          (_sensores g),
     g, Valor tt).
Proof.
  rewrite evaluar_y_notificar_ejecutar.
  unfold traza_gestor, traza_sensor. reflexivity.
Qed.

Lemma traza_sensor_registro_o_envio (ns : list Notificador) (s : Sensor) :
  Forall registro_o_envio (traza_sensor ns s).
Proof.
  unfold traza_sensor. destruct (valor_alerta s).
  - constructor; [exact I|].
    induction ns as [|n ns IH]; cbn [flat_map app]; [constructor|].
    constructor; [exact I|]. constructor; [exact I | exact IH].
  - constructor; [exact I | constructor].
Qed.

(** C10.  After [evaluar_y_notificar()] the manager is as it was before:
    the same list of sensors, each with the same [id], [ventana],
    [_calibracion], threshold and [_buffer], and the same list of
    notifiers.  The run returns, and its only effects are calls on the
    logger and on the notifiers. *)
Theorem evaluar_y_notificar_marco (g : GestorAlertas) :
  exists out : list Efecto,
    ejecutar evaluar_y_notificar g = (out, g, Valor tt)
    /\ Forall registro_o_envio out.
Proof.
  exists (traza_gestor g). split; [apply evaluar_y_notificar_ejecutar|].
  unfold traza_gestor. constructor; [exact I|].
  induction (_sensores g) as [|s ss IH]; cbn [flat_map]; [constructor|].
  apply Forall_app. split; [apply traza_sensor_registro_o_envio | exact IH].
Qed.

(** ** [PlantaIndustrial] *)

(** C9.  [evaluar_sensores()] prints its opening line, runs
    [evaluar_y_notificar()] once on each registered manager in registration
    order, prints its closing line and returns; the plant is then as it was.
    [agregar_gestor(gestor)] puts [gestor] at the end of the list whatever
    the list holds, and the managers registered before keep their places. *)
Theorem planta_industrial (p : PlantaIndustrial) :
  ejecutar evaluar_sensores p
  = (Impresion (String "010" "Inicia evaluación...")
       :: flat_map (fun g => fst (fst (ejecutar evaluar_y_notificar g)))
            (_gestores p)
       ++ [Impresion "... Evaluación terminada"],
     p, Valor tt)
  /\ forall gestor : GestorAlertas,
       ejecutar (agregar_gestor gestor) p
       = ([], mkPlantaIndustrial (_gestores p ++ [gestor]), Valor tt)
       /\ firstn (List.length (_gestores p)) (_gestores p ++ [gestor])
          = _gestores p.
Proof.
  split.
  - unfold evaluar_sensores, print. paso. paso.
    rewrite ejecutar_en_campo.
    rewrite ejecutar_en_cada with (f := traza_gestor)
      by apply evaluar_y_notificar_ejecutar.
    cbv beta iota. rewrite ejecutar_emitir.
    cbn [app]. destruct p as [gestores]. cbn [_gestores].
    rewrite (flat_map_ext (fun g => fst (fst (ejecutar evaluar_y_notificar g)))
               traza_gestor)
      by (intros g; rewrite evaluar_y_notificar_ejecutar; reflexivity).
    reflexivity.
  - intros gestor. split; [reflexivity|].
    rewrite firstn_app, Nat.sub_diag, firstn_all. cbn [firstn].
    apply app_nil_r.
Qed.

(** ** Checks of the model on concrete values *)

Example mean_ejemplos :
  Statistics.mean [] = Lanza StatisticsError
  /\ Statistics.mean [Binary64.of_int 75; Binary64.of_int 85]
     = Valor (Binary64.of_int 80)
  /\ Statistics.mean [Binary64.of_dyadic 3 (-1); Binary64.of_int 3]
     = Valor (Binary64.of_dyadic 9 (-2))
  /\ Statistics.mean [S754_infinity false; Binary64.of_int 1]
     = Valor (S754_infinity false).
Proof. repeat split. Qed.

Example format_2f_ejemplos :
  Format.format_2f (Binary64.of_int 80) = "80.00"%string
  /\ Format.format_2f (Binary64.of_dyadic 9 (-2)) = "2.25"%string
  /\ Format.format_2f (Binary64.of_dyadic 1 (-3)) = "0.12"%string
  /\ Format.format_2f (Binary64.of_dyadic 3 (-3)) = "0.38"%string
  /\ Format.format_2f (S754_zero true) = "-0.00"%string.
Proof. repeat split. Qed.

(** The first scenario of [main()]: 75.0 gives no alert, then 85.0 brings
    the average to 80.0 and the notifier is called. *)
Example main_temperatura :
  fst (fst (ejecutar (escenario (Binary64.of_int 75) (Binary64.of_int 85)) gestor_temp))
  = [Registro "EVALUACIÓN INICIADA" "Comenzando a evaluar sensores...";
     Registro "SIN ALERTA" "Sensor temperatura_01 dentro de los límites.";
     Registro "EVALUACIÓN INICIADA" "Comenzando a evaluar sensores...";
     Registro "ALERTA ACTIVA" "ALERTA: Sensor temperatura_01 en umbral (avg=80.00)";
     Envio (NotificadorEmail "temp@test.com")
       "ALERTA: Sensor temperatura_01 en umbral (avg=80.00)";
     Registro "NOTIFICACIÓN ENVIADA" "Notificación enviada para temperatura_01"].
Proof. vm_compute. reflexivity. Qed.

(** The second scenario: the averages 1.5 and 2.25 stay below 2.5. *)
Example main_vibracion :
  fst (fst (ejecutar (escenario (Binary64.of_dyadic 3 (-1)) (Binary64.of_int 3)) gestor_vibr))
  = [Registro "EVALUACIÓN INICIADA" "Comenzando a evaluar sensores...";
     Registro "SIN ALERTA" "Sensor vibracion_02 dentro de los límites.";
     Registro "EVALUACIÓN INICIADA" "Comenzando a evaluar sensores...";
     Registro "SIN ALERTA" "Sensor vibracion_02 dentro de los límites."].
Proof. vm_compute. reflexivity. Qed.

(** The third scenario: 65.0 gives no alert, then 75.0 brings the average
    to the threshold 70.0. *)
Example main_humedad :
  fst (fst (ejecutar (escenario (Binary64.of_int 65) (Binary64.of_int 75)) gestor_hum))
  = [Registro "EVALUACIÓN INICIADA" "Comenzando a evaluar sensores...";
     Registro "SIN ALERTA" "Sensor humedad_04 dentro de los límites.";
     Registro "EVALUACIÓN INICIADA" "Comenzando a evaluar sensores...";
     Registro "ALERTA ACTIVA" "ALERTA: Sensor humedad_04 en umbral (avg=70.00)";
     Envio (NotificadorEmail "humedad@test.com")
       "ALERTA: Sensor humedad_04 en umbral (avg=70.00)";
     Registro "NOTIFICACIÓN ENVIADA" "Notificación enviada para humedad_04"].
Proof. vm_compute. reflexivity. Qed.

(** * Further properties of the code *)

(** ** The window while it fills, when it is over-full, and when it is not
    positive *)

Lemma ultimos_map {A B} (f : A -> B) (n : nat) (l : list A) :
  ultimos n (map f l) = map f (ultimos n l).
Proof. unfold ultimos. rewrite length_map. apply skipn_map. Qed.

Lemma ultimos_cero {A} (l : list A) : ultimos 0 l = [].
Proof. unfold ultimos. rewrite Nat.sub_0_r. apply skipn_all. Qed.

(** X1.  While the window is not full nothing is evicted: if the buffer and
    the new readings together fit in the window, the readings are appended,
    adjusted, after what the buffer held. *)
Theorem leer_sin_desalojo (s : Sensor) (valores : list float) :
  Z.of_nat (List.length (_buffer s) + List.length valores) <= ventana s ->
  ejecutar (para_cada valores leer) s
  = ([], con_buffer s (_buffer s
                         ++ map (fun v => Binary64.add v (_calibracion s)) valores),
     Valor tt).
Proof.
  intros Hcabe. rewrite leer_todas_ejecutar. unfold ajustado.
  rewrite ultimos_todo; [reflexivity|].
  rewrite length_app, length_map. unfold capacidad. lia.
Qed.

Lemma leer_sin_desalojo_witness :
  let s := mkSensor "humedad_04" 5 (Binary64.of_dyadic 1 (-1))
             [Binary64.of_int 60] (SensorHumedad (Binary64.of_int 70)) in
  let valores := [Binary64.of_int 65; Binary64.of_int 75] in
  Z.of_nat (List.length (_buffer s) + List.length valores) <= ventana s
  /\ ejecutar (para_cada valores leer) s
     = ([], con_buffer s [Binary64.of_int 60; Binary64.of_dyadic 131 (-1);
                          Binary64.of_dyadic 151 (-1)],
        Valor tt).
Proof.
  intros s valores.
  assert (H : Z.of_nat (List.length (_buffer s) + List.length valores) <= ventana s)
    by (vm_compute; discriminate).
  split; [exact H|]. exact (leer_sin_desalojo s valores H).
Defined.

(** X2.  [leer] removes one element per call, so a buffer that is longer
    than the window (the constructor accepts any [_buffer]) is never cut
    down to it: after any readings it has the length it had, still above
    [ventana], and holds the last elements of the old contents followed by
    the adjusted readings. *)
Theorem leer_sobre_ventana (s : Sensor) (valores : list float) :
  ventana s < Z.of_nat (List.length (_buffer s)) ->
  exists s',
    ejecutar (para_cada valores leer) s = ([], s', Valor tt)
    /\ _buffer s'
       = ultimos (List.length (_buffer s))
           (_buffer s ++ map (fun v => Binary64.add v (_calibracion s)) valores)
    /\ List.length (_buffer s') = List.length (_buffer s)
    /\ ventana s' < Z.of_nat (List.length (_buffer s')).
Proof.
  intros Hsobre.
  assert (Hcap : capacidad s = List.length (_buffer s)) by (unfold capacidad; lia).
  eexists. split; [apply leer_todas_ejecutar|].
  cbn [con_buffer _buffer ventana]. rewrite Hcap. unfold ajustado.
  split; [reflexivity|].
  assert (Hlen : List.length (ultimos (List.length (_buffer s))
                   (_buffer s ++ map (fun v => Binary64.add v (_calibracion s)) valores))
                 = List.length (_buffer s))
    by (rewrite ultimos_length, length_app; lia).
  split; [exact Hlen | rewrite Hlen; exact Hsobre].
Qed.

Lemma leer_sobre_ventana_witness :
  let s := mkSensor "temperatura_01" 1 Binary64.zero
             [Binary64.of_int 1; Binary64.of_int 2; Binary64.of_int 3]
             (SensorTemperatura (Binary64.of_int 80)) in
  let valores := [Binary64.of_int 4; Binary64.of_int 5] in
  ventana s < Z.of_nat (List.length (_buffer s))
  /\ exists s',
       ejecutar (para_cada valores leer) s = ([], s', Valor tt)
       /\ _buffer s' = [Binary64.of_int 3; Binary64.of_int 4; Binary64.of_int 5]
       /\ List.length (_buffer s') = 3%nat.
Proof.
  intros s valores.
  assert (H : ventana s < Z.of_nat (List.length (_buffer s))) by reflexivity.
  split; [exact H|].
  destruct (leer_sobre_ventana s valores H) as [s' [Hrun [Hbuf [Hlen _]]]].
  exists s'. split; [exact Hrun|]. split; [exact Hbuf | exact Hlen].
Defined.

(** X3.  With a window that is not positive every reading is removed by
    the call that stores it: a sensor without readings stays exactly as it
    was, and its average stays [0.0]. *)
Theorem leer_ventana_no_positiva (s : Sensor) (valores : list float) :
  ventana s <= 0 ->
  _buffer s = [] ->
  ejecutar (para_cada valores leer) s = ([], s, Valor tt)
  /\ ejecutar (para_cada valores leer ;; promedio) s
     = ([], s, Valor Binary64.zero).
Proof.
  intros Hw Hvacio.
  assert (Hrun : ejecutar (para_cada valores leer) s = ([], s, Valor tt)).
  { rewrite leer_todas_ejecutar.
    replace (capacidad s) with 0%nat
      by (unfold capacidad; rewrite Hvacio; cbn [List.length]; lia).
    rewrite ultimos_cero, <- Hvacio. rewrite con_buffer_mismo. reflexivity. }
  split; [exact Hrun|].
  paso. rewrite Hrun. cbv beta iota. rewrite promedio_ejecutar.
  unfold valor_promedio. rewrite Hvacio. reflexivity.
Qed.

Lemma leer_ventana_no_positiva_witness :
  let s := nuevo "vibracion_02" 0 Binary64.zero
             (SensorVibracion (Binary64.of_dyadic 5 (-1))) in
  let valores := [Binary64.of_int 9; Binary64.of_int 9] in
  ventana s <= 0
  /\ _buffer s = []
  /\ ejecutar (para_cada valores leer) s = ([], s, Valor tt)
  /\ ejecutar (para_cada valores leer ;; promedio) s
     = ([], s, Valor Binary64.zero).
Proof.
  intros s valores.
  assert (H1 : ventana s <= 0) by (vm_compute; discriminate).
  assert (H2 : _buffer s = []) by reflexivity.
  split; [exact H1|]. split; [exact H2|].
  exact (leer_ventana_no_positiva s valores H1 H2).
Defined.

(** X4.  Once more than [ventana] readings have come in, what came before
    is forgotten: a sensor within its window ends in the same state, and
    [en_alerta()] then answers the same, whatever its buffer held at the
    start and whatever the earlier readings were, as long as the last
    [ventana] readings are the same. *)
Theorem leer_olvida (s : Sensor) (b' : list float) (valores valores' : list float) :
  Z.of_nat (List.length (_buffer s)) <= ventana s ->
  Z.of_nat (List.length b') <= ventana s ->
  ventana s < Z.of_nat (List.length valores) ->
  ventana s < Z.of_nat (List.length valores') ->
  ultimos (Z.to_nat (ventana s)) valores = ultimos (Z.to_nat (ventana s)) valores' ->
  ejecutar (para_cada valores leer ;; en_alerta) s
  = ejecutar (para_cada valores' leer ;; en_alerta) (con_buffer s b').
Proof.
  intros Hs Hb' Hn Hn' Hult.
  assert (Hfinal : forall (t : Sensor) (vs : list float),
             Z.of_nat (List.length (_buffer t)) <= ventana t ->
             ventana t < Z.of_nat (List.length vs) ->
             ejecutar (para_cada vs leer) t
             = ([], con_buffer t (map (ajustado t) (ultimos (Z.to_nat (ventana t)) vs)),
                Valor tt)).
  { intros t vs Ht Hvs.
    rewrite leer_todas_ejecutar, capacidad_en_ventana by exact Ht.
    rewrite ultimos_app by (rewrite length_map; lia).
    rewrite ultimos_map. reflexivity. }
  rewrite !ejecutar_bind_eq.
  rewrite (Hfinal s valores Hs Hn).
  rewrite (Hfinal (con_buffer s b') valores') by assumption.
  cbn [con_buffer ventana _buffer id _calibracion clase].
  rewrite Hult. reflexivity.
Qed.

Lemma leer_olvida_witness :
  let s := mkSensor "temperatura_01" 2 Binary64.zero
             [Binary64.of_int 10] (SensorTemperatura (Binary64.of_int 80)) in
  let b' := [Binary64.of_int 99; Binary64.of_int 98] in
  let valores := [Binary64.of_int 1; Binary64.of_int 75; Binary64.of_int 85] in
  let valores' := [Binary64.of_int 7; Binary64.of_int 8; Binary64.of_int 75;
                   Binary64.of_int 85] in
  ejecutar (para_cada valores leer ;; en_alerta) s
  = ejecutar (para_cada valores' leer ;; en_alerta) (con_buffer s b').
Proof.
  intros s b' valores valores'.
  apply (leer_olvida s b' valores valores');
    try reflexivity; vm_compute; discriminate.
Defined.

(** ** NaN, and the two sides of [SensorVibracion] *)

(** Once the float sum of the special values is NaN it stays NaN. *)
Lemma special_sum_nan_fijo (data : list float) :
  Statistics.special_sum (Some S754_nan) data = Some S754_nan.
Proof.
  induction data as [|x data IH]; [reflexivity|].
  cbn [Statistics.special_sum].
  destruct (Binary64.is_finite x); [exact IH|].
  destruct x; exact IH.
Qed.

Lemma special_sum_nan (data : list float) (acc : option float) :
  In S754_nan data -> Statistics.special_sum acc data = Some S754_nan.
Proof.
  revert acc. induction data as [|x data IH]; intros acc Hin; [contradiction|].
  destruct Hin as [-> | Hin].
  - cbn [Statistics.special_sum Binary64.is_finite].
    destruct acc as [[ | | | ]|]; apply special_sum_nan_fijo.
  - cbn [Statistics.special_sum]. destruct (Binary64.is_finite x); apply IH, Hin.
Qed.

(** The mean of data with a NaN among them is NaN. *)
Lemma mean_of_nan (x : float) (resto : list float) :
  In S754_nan (x :: resto) -> Statistics.mean_of x resto = S754_nan.
Proof.
  intros Hin. unfold Statistics.mean_of.
  rewrite special_sum_nan by exact Hin. reflexivity.
Qed.

Lemma add_nan_l (c : float) : Binary64.add S754_nan c = S754_nan.
Proof. destruct c; reflexivity. Qed.

Lemma ge_nan_r (p : float) : Binary64.ge p S754_nan = false.
Proof. destruct p; reflexivity. Qed.

(** The last element that [leer] stores stays in the buffer when the window
    has room for one element at least. *)
Lemma buffer_tras_leer_In (s : Sensor) (valor : float) :
  1 <= ventana s -> In (ajustado s valor) (buffer_tras_leer s valor).
Proof.
  intros Hw. unfold buffer_tras_leer.
  destruct (Z.gtb_spec
              (Z.of_nat (List.length (_buffer s ++ [ajustado s valor]))) (ventana s))
    as [Hgt|Hle]; [|apply in_or_app; right; left; reflexivity].
  destruct (_buffer s) as [|x b].
  - cbn [app List.length] in Hgt. lia.
  - cbn [app tl]. apply in_or_app. right. left. reflexivity.
Qed.

(** X5.  NaN switches the alert off in every subclass.  With a NaN in the
    buffer [promedio] is NaN and [en_alerta()] is false whatever the
    threshold; a NaN reading is stored as NaN whatever the calibration, so
    on a sensor with a window of 1 or more [en_alerta()] is false right
    after [leer(nan)]; and a sensor whose threshold is NaN is never in
    alert. *)
Theorem nan_sin_alerta (s : Sensor) :
  (In S754_nan (_buffer s) ->
   ejecutar promedio s = ([], s, Valor S754_nan)
   /\ ejecutar en_alerta s = ([], s, Valor false))
  /\ (1 <= ventana s ->
      exists s', ejecutar (leer S754_nan ;; en_alerta) s = ([], s', Valor false))
  /\ (umbral_de s = S754_nan ->
      ejecutar en_alerta s = ([], s, Valor false)).
Proof.
  assert (Hbuf : forall t : Sensor,
             In S754_nan (_buffer t) ->
             valor_promedio t = S754_nan /\ valor_alerta t = false).
  { intros t Hin.
    assert (Hp : valor_promedio t = S754_nan).
    { unfold valor_promedio. destruct (_buffer t) as [|x resto]; [contradiction|].
      apply mean_of_nan, Hin. }
    split; [exact Hp|].
    unfold valor_alerta. rewrite Hp. destruct (clase t); reflexivity. }
  split; [|split].
  - intros Hin. destruct (Hbuf s Hin) as [Hp Ha].
    rewrite promedio_ejecutar, en_alerta_ejecutar, Hp, Ha. split; reflexivity.
  - intros Hw.
    assert (Hin : In S754_nan
                    (_buffer (con_buffer s (buffer_tras_leer s S754_nan)))).
    { cbn [con_buffer _buffer].
      rewrite <- (add_nan_l (_calibracion s)) at 1.
      apply (buffer_tras_leer_In s S754_nan), Hw. }
    eexists. paso. rewrite leer_ejecutar. cbv beta iota.
    rewrite en_alerta_ejecutar, (proj2 (Hbuf _ Hin)). reflexivity.
  - intros Hu. rewrite en_alerta_ejecutar. unfold valor_alerta.
    unfold umbral_de in Hu.
    destruct (clase s); rewrite Hu; rewrite ge_nan_r; reflexivity.
Qed.

Lemma nan_sin_alerta_witness :
  let s := mkSensor "temperatura_01" 5 Binary64.zero
             [Binary64.of_int 500; S754_nan]
             (SensorTemperatura (Binary64.of_int 80)) in
  let t := mkSensor "humedad_04" 5 Binary64.zero
             [Binary64.of_int 500] (SensorHumedad S754_nan) in
  (In S754_nan (_buffer s) /\ ejecutar en_alerta s = ([], s, Valor false))
  /\ (1 <= ventana s
      /\ exists s', ejecutar (leer S754_nan ;; en_alerta) s = ([], s', Valor false))
  /\ (umbral_de t = S754_nan /\ ejecutar en_alerta t = ([], t, Valor false)).
Proof.
  intros s t.
  assert (H1 : In S754_nan (_buffer s)) by (right; left; reflexivity).
  assert (H2 : 1 <= ventana s) by (vm_compute; discriminate).
  assert (H3 : umbral_de t = S754_nan) by reflexivity.
  split; [split; [exact H1 | exact (proj2 (proj1 (nan_sin_alerta s) H1))]|].
  split; [split; [exact H2 | exact (proj1 (proj2 (nan_sin_alerta s)) H2)]|].
  split; [exact H3 | exact (proj2 (proj2 (nan_sin_alerta t)) H3)].
Defined.

(** [abs(p) >= u] says that [p >= u] or [p <= -u]. *)
Lemma ge_abs (p u : float) :
  Binary64.ge (Binary64.abs p) u
  = Binary64.ge p u || Binary64.le p (SFopp u).
Proof.
  unfold Binary64.ge, Binary64.le, SFleb, Binary64.abs.
  destruct p as [sp|sp| |sp mp ep], u as [su|su| |su mu eu];
    try destruct sp; try destruct su; try reflexivity;
    cbn [SFabs SFopp SFcompare negb];
    destruct (ep ?= eu); try reflexivity;
    destruct (Pos.compare_cont Eq mp mu); reflexivity.
Qed.

(** X6.  [SensorVibracion] alerts on both sides: [en_alerta()] is true
    exactly when the average is at or above [rms_umbral] or at or below
    [-rms_umbral].  The other subclasses alert at or above the threshold
    only, so a vibration sensor is in alert whenever a sensor of another
    subclass with the same buffer and threshold is. *)
Theorem vibracion_dos_lados (s : Sensor) (u : float) :
  clase s = SensorVibracion u ->
  exists (p : float) (b : bool),
    ejecutar promedio s = ([], s, Valor p)
    /\ ejecutar en_alerta s = ([], s, Valor b)
    /\ (b = true <-> Binary64.ge p u = true \/ Binary64.le p (SFopp u) = true)
    /\ forall t : Sensor,
         _buffer t = _buffer s ->
         umbral_de t = u ->
         ejecutar en_alerta t = ([], t, Valor true) ->
         b = true.
Proof.
  intros Hclase. exists (valor_promedio s), (valor_alerta s).
  split; [apply promedio_ejecutar|]. split; [apply en_alerta_ejecutar|].
  assert (Hb : valor_alerta s
               = Binary64.ge (valor_promedio s) u
                 || Binary64.le (valor_promedio s) (SFopp u))
    by (unfold valor_alerta; rewrite Hclase; apply ge_abs).
  split.
  - rewrite Hb. apply orb_true_iff.
  - intros t Hbuf Hu Ht. rewrite en_alerta_ejecutar in Ht.
    injection Ht as Ht.
    assert (Hpt : valor_promedio t = valor_promedio s)
      by (unfold valor_promedio; rewrite Hbuf; reflexivity).
    rewrite Hb. apply orb_true_iff.
    unfold valor_alerta, umbral_de in Ht, Hu.
    destruct (clase t); rewrite Hu, Hpt in Ht;
      [left; exact Ht | rewrite ge_abs in Ht; apply orb_true_iff, Ht
      | left; exact Ht | left; exact Ht].
Qed.

Lemma vibracion_dos_lados_witness :
  let s := mkSensor "vibracion_02" 5 Binary64.zero
             [Binary64.of_int (-3); Binary64.of_int (-4)]
             (SensorVibracion (Binary64.of_dyadic 5 (-1))) in
  clase s = SensorVibracion (Binary64.of_dyadic 5 (-1))
  /\ Binary64.le (Binary64.of_dyadic (-7) (-1)) (SFopp (Binary64.of_dyadic 5 (-1))) = true
  /\ ejecutar en_alerta s = ([], s, Valor true).
Proof.
  intros s.
  assert (H : clase s = SensorVibracion (Binary64.of_dyadic 5 (-1))) by reflexivity.
  split; [exact H|]. split; [reflexivity|].
  destruct (vibracion_dos_lados s _ H) as [p [b [Hp [Hb [Hiff _]]]]].
  rewrite Hb. f_equal. f_equal. apply Hiff. right.
  rewrite promedio_ejecutar in Hp. injection Hp as <-. reflexivity.
Defined.

(** ** Cycles of a manager: repeated, with empty lists, and their log *)

(** X7.  A cycle keeps no memory of the alerts it has raised: [n] cycles in
    a row, with no reading in between, make the calls of one cycle [n]
    times over, so every notifier is called again at each cycle for each
    sensor that is still in alert. *)
Theorem evaluar_y_notificar_repetido (g : GestorAlertas) (n : nat) :
  let ciclo := fst (fst (ejecutar evaluar_y_notificar g)) in
  ejecutar (repetir n evaluar_y_notificar) g
  = (List.concat (repeat ciclo n), g, Valor tt)
  /\ List.length (envios (List.concat (repeat ciclo n)))
     = (n * (List.length (filter valor_alerta (_sensores g))
             * List.length (_notificadores g)))%nat.
Proof.
  cbv zeta. rewrite evaluar_y_notificar_ejecutar. cbn [fst].
  split.
  - induction n as [|n IH]; [reflexivity|].
    cbn [repetir repeat List.concat]. paso.
    rewrite evaluar_y_notificar_ejecutar, IH. reflexivity.
  - induction n as [|n IH]; [reflexivity|].
    cbn [repeat List.concat]. rewrite envios_app, length_app, IH.
    assert (Hciclo : List.length (envios (traza_gestor g))
                     = (List.length (filter valor_alerta (_sensores g))
                        * List.length (_notificadores g))%nat).
    { unfold traza_gestor. cbn [envios]. rewrite envios_flat_map.
      rewrite (flat_map_ext _ (envios_sensor (_notificadores g)))
        by (intros s; apply envios_traza_sensor).
      apply length_flat_map_envios_sensor. }
    rewrite Hciclo. lia.
Qed.

(** X8.  Empty lists.  A manager without sensors only logs the start of
    the cycle.  A manager without notifiers makes no send: it logs the
    start and one entry per sensor, in alert or not. *)
Theorem evaluar_y_notificar_listas_vacias (g : GestorAlertas) :
  (_sensores g = [] ->
   ejecutar evaluar_y_notificar g
   = ([Registro "EVALUACIÓN INICIADA" "Comenzando a evaluar sensores..."],
      g, Valor tt))
  /\ (_notificadores g = [] ->
      exists out,
        ejecutar evaluar_y_notificar g = (out, g, Valor tt)
        /\ envios out = []
        /\ List.length out = S (List.length (_sensores g))).
Proof.
  split.
  - intros Hss. rewrite evaluar_y_notificar_ejecutar.
    unfold traza_gestor. rewrite Hss. reflexivity.
  - intros Hns. exists (traza_gestor g).
    split; [apply evaluar_y_notificar_ejecutar|].
    unfold traza_gestor. rewrite Hns. cbn [envios List.length].
    induction (_sensores g) as [|s ss [IH1 IH2]]; [split; reflexivity|].
    cbn [flat_map]. rewrite envios_app, length_app, IH1.
    injection IH2 as IH2. rewrite IH2.
    unfold traza_sensor. destruct (valor_alerta s); split; reflexivity.
Qed.

Lemma evaluar_y_notificar_listas_vacias_witness :
  let sensor := mkSensor "temperatura_01" 5 Binary64.zero [Binary64.of_int 90]
                  (SensorTemperatura (Binary64.of_int 80)) in
  let sin_sensores := mkGestorAlertas [] [NotificadorEmail "temp@test.com"] _instance in
  let sin_notificadores := mkGestorAlertas [sensor] [] _instance in
  ejecutar evaluar_y_notificar sin_sensores
  = ([Registro "EVALUACIÓN INICIADA" "Comenzando a evaluar sensores..."],
     sin_sensores, Valor tt)
  /\ exists out,
       ejecutar evaluar_y_notificar sin_notificadores
       = (out, sin_notificadores, Valor tt)
       /\ envios out = []
       /\ List.length out = 2%nat.
Proof.
  intros sensor sin_sensores sin_notificadores. split.
  - exact (proj1 (evaluar_y_notificar_listas_vacias sin_sensores) eq_refl).
  - exact (proj2 (evaluar_y_notificar_listas_vacias sin_notificadores) eq_refl).
Defined.

Lemma registros_app (evento : string) (out1 out2 : list Efecto) :
  registros evento (out1 ++ out2) = registros evento out1 ++ registros evento out2.
Proof.
  induction out1 as [|[e mensaje|n mensaje|texto] out1 IH];
    cbn [app registros]; rewrite ?IH; [reflexivity| |reflexivity|reflexivity].
  destruct (String.eqb e evento); reflexivity.
Qed.

(** The log entries that follow the sends are of neither status kind and
    do not start a cycle. *)
Lemma registros_notificaciones (evento : string) (ns : list Notificador)
  (mensaje nota : string) :
  String.eqb "NOTIFICACIÓN ENVIADA" evento = false ->
  registros evento
    (flat_map (fun n => [Envio n mensaje; Registro "NOTIFICACIÓN ENVIADA" nota]) ns)
  = [].
Proof.
  intros Hevento. induction ns as [|n ns IH]; [reflexivity|].
  cbn [flat_map app registros]. rewrite Hevento. exact IH.
Qed.

Lemma registros_traza_sensor (ns : list Notificador) (s : Sensor) :
  registros "ALERTA ACTIVA" (traza_sensor ns s)
  = (if valor_alerta s then [mensaje_alerta s] else [])
  /\ registros "SIN ALERTA" (traza_sensor ns s)
     = (if valor_alerta s then []
        else [("Sensor " ++ id s ++ " dentro de los límites.")%string])
  /\ registros "EVALUACIÓN INICIADA" (traza_sensor ns s) = [].
Proof.
  unfold traza_sensor. destruct (valor_alerta s).
  - cbn [registros]. rewrite !registros_notificaciones by reflexivity.
    repeat split.
  - repeat split.
Qed.

(** X9.  Every cycle logs the state of every sensor once: the entries of
    kind "ALERTA ACTIVA" are the alert messages of the sensors in alert, in
    registration order, and the entries of kind "SIN ALERTA" belong to the
    other sensors, in registration order; together they are as many as the
    manager has sensors. *)
Theorem evaluar_y_notificar_estados (g : GestorAlertas) :
  exists out,
    ejecutar evaluar_y_notificar g = (out, g, Valor tt)
    /\ registros "ALERTA ACTIVA" out
       = map mensaje_alerta (filter valor_alerta (_sensores g))
    /\ registros "SIN ALERTA" out
       = map (fun s => ("Sensor " ++ id s ++ " dentro de los límites.")%string)
           (filter (fun s => negb (valor_alerta s)) (_sensores g))
    /\ (List.length (registros "ALERTA ACTIVA" out)
        + List.length (registros "SIN ALERTA" out))%nat
       = List.length (_sensores g).
Proof.
  exists (traza_gestor g). split; [apply evaluar_y_notificar_ejecutar|].
  unfold traza_gestor. cbn [registros String.eqb Ascii.eqb Bool.eqb].
  induction (_sensores g) as [|s ss [IH1 [IH2 IH3]]]; [repeat split|].
  cbn [flat_map filter]. rewrite !registros_app, !length_app, IH1, IH2.
  destruct (registros_traza_sensor (_notificadores g) s) as [H1 [H2 _]].
  rewrite H1, H2. rewrite IH1, IH2 in IH3.
  destruct (valor_alerta s); cbn [negb map app List.length];
    (split; [reflexivity|]); (split; [reflexivity|]); lia.
Qed.

(** ** A reading on one sensor of a manager *)





(** ** The plant: managers added, then evaluated *)

Lemma evaluar_sensores_ejecutar (gestores : list GestorAlertas) :
  ejecutar evaluar_sensores (mkPlantaIndustrial gestores)
  = (Impresion (String "010" "Inicia evaluación...")
       :: flat_map traza_gestor gestores
       ++ [Impresion "... Evaluación terminada"],
     mkPlantaIndustrial gestores, Valor tt).
Proof.
  unfold evaluar_sensores, print. paso. paso.
  rewrite ejecutar_en_campo.
  rewrite ejecutar_en_cada with (f := traza_gestor)
    by apply evaluar_y_notificar_ejecutar.
  cbv beta iota. rewrite ejecutar_emitir. reflexivity.
Qed.

Lemma traza_gestor_ejecutar (g : GestorAlertas) :
  fst (fst (ejecutar evaluar_y_notificar g)) = traza_gestor g.
Proof. rewrite evaluar_y_notificar_ejecutar. reflexivity. Qed.

(** X11.  A manager added to a plant is evaluated last in the next
    evaluation, after the managers that were there; adding the same
    manager twice makes every evaluation run its cycle twice. *)
Theorem agregar_gestor_evaluar (p : PlantaIndustrial) (gestor : GestorAlertas) :
  let ciclo := fun g => fst (fst (ejecutar evaluar_y_notificar g)) in
  ejecutar (agregar_gestor gestor ;; evaluar_sensores) p
  = (Impresion (String "010" "Inicia evaluación...")
       :: flat_map ciclo (_gestores p)
       ++ ciclo gestor
       ++ [Impresion "... Evaluación terminada"],
     mkPlantaIndustrial (_gestores p ++ [gestor]), Valor tt)
  /\ ejecutar (agregar_gestor gestor ;; agregar_gestor gestor ;; evaluar_sensores) p
     = (Impresion (String "010" "Inicia evaluación...")
          :: flat_map ciclo (_gestores p)
          ++ ciclo gestor ++ ciclo gestor
          ++ [Impresion "... Evaluación terminada"],
        mkPlantaIndustrial (_gestores p ++ [gestor; gestor]), Valor tt).
Proof.
  cbv zeta.
  rewrite (flat_map_ext _ traza_gestor) by apply traza_gestor_ejecutar.
  rewrite traza_gestor_ejecutar.
  split.
  - paso. unfold agregar_gestor at 1. paso. unfold asignar at 1.
    unfold ejecutar at 1. cbv beta iota.
    rewrite evaluar_sensores_ejecutar, flat_map_app. cbn [flat_map app].
    rewrite app_nil_r, <- app_assoc. reflexivity.
  - paso. unfold agregar_gestor at 1. paso. unfold asignar at 1.
    unfold ejecutar at 1. cbv beta iota.
    paso. unfold agregar_gestor at 1. paso. unfold asignar at 1.
    unfold ejecutar at 1. cbv beta iota. cbn [_gestores].
    replace ((_gestores p ++ [gestor]) ++ [gestor])
      with (_gestores p ++ [gestor; gestor])
      by (rewrite <- app_assoc; reflexivity).
    rewrite evaluar_sensores_ejecutar, flat_map_app. cbn [flat_map].
    rewrite app_nil_r, <- !app_assoc. reflexivity.
Qed.

Lemma registros_inicio_gestor (g : GestorAlertas) :
  registros "EVALUACIÓN INICIADA" (traza_gestor g)
  = ["Comenzando a evaluar sensores..."%string].
Proof.
  unfold traza_gestor. cbn [registros String.eqb Ascii.eqb Bool.eqb].
  f_equal. induction (_sensores g) as [|s ss IH]; [reflexivity|].
  cbn [flat_map]. rewrite registros_app, IH.
  rewrite (proj2 (proj2 (registros_traza_sensor (_notificadores g) s))).
  reflexivity.
Qed.

(** X12.  One evaluation of a plant starts exactly one cycle per
    registered manager, counting a manager as often as it is registered:
    its output has as many log entries of kind "EVALUACIÓN INICIADA" as the
    plant has managers, between its opening and its closing line. *)
Theorem evaluar_sensores_ciclos (p : PlantaIndustrial) :
  exists out,
    ejecutar evaluar_sensores p
    = (Impresion (String "010" "Inicia evaluación...") :: out
         ++ [Impresion "... Evaluación terminada"],
       p, Valor tt)
    /\ List.length (registros "EVALUACIÓN INICIADA" out)
       = List.length (_gestores p)
    /\ Forall registro_o_envio out.
Proof.
  destruct p as [gestores]. exists (flat_map traza_gestor gestores).
  split; [apply evaluar_sensores_ejecutar|]. cbn [_gestores].
  induction gestores as [|g gs [IH1 IH2]]; [split; [reflexivity | constructor]|].
  cbn [flat_map List.length]. split.
  - rewrite registros_app, length_app, registros_inicio_gestor, IH1. reflexivity.
  - apply Forall_app. split; [|exact IH2].
    unfold traza_gestor. constructor; [exact I|].
    induction (_sensores g) as [|s ss IH]; cbn [flat_map]; [constructor|].
    apply Forall_app. split; [apply traza_sensor_registro_o_envio | exact IH].
Qed.

(** ** The one instance of [RegistroEvento] *)

(** X13.  [RegistroEvento()] is a singleton factory: whatever the memory,
    a call returns an object, and every later call returns the same object
    and changes nothing; a call makes a new object only when
    [RegistroEvento._instance] is [None], and otherwise returns the one it
    holds. *)
Theorem RegistroEvento_unico (m : Memoria) :
  exists (o : nat) (m1 : Memoria),
    ejecutar RegistroEvento_new m = ([], m1, Valor (Some o))
    /\ ejecutar RegistroEvento_new m1 = ([], m1, Valor (Some o))
    /\ ejecutar (RegistroEvento_new ;; RegistroEvento_new) m
       = ([], m1, Valor (Some o))
    /\ match RegistroEvento_instance m with
       | Some o0 => o = o0 /\ m1 = m
       | None => o = libre m /\ libre m1 = S (libre m)
       end.
Proof.
  destruct m as [[o0|] l].
  - exists o0, (mkMemoria (Some o0) l). repeat split.
  - exists l, (mkMemoria (Some l) (S l)). repeat split.
Qed.
